(** * XGBoostModel: the train / evaluate / select loop and the predictor

    A shallow embedding of [src/models/XGBoostModel.py].

    - The instance attributes that methods read or write are the fields of
      the record [XGBoostModel]; the sqlite database is the record [db].
      A method is a function from the instance and the database to the new
      instance and database, or to the exception it raises.
    - The libraries the class calls (xgboost, the feature helpers, the
      parent class' preprocessing) are the fields of the class
      [Collaborators]; scikit-learn's [KFold] and the two metrics are written
      out from their documented behaviour.
    - Scores are exact rationals ([Q]); the class probabilities the
      classifier reports are values of a type of the collaborators, and
      Python's [round] on them is one of their operations. Calendar dates
      are day numbers ([Z]), whose order is the order of the ISO date strings
      of the source. *)

From Stdlib Require Import ZArith QArith Qabs Lqa String Lia.
From stdpp Require Import gmap strings list fin_maps.

Local Open Scope Z_scope.

(** ** Python values and exceptions *)

Module Python.

Inductive exn : Type :=
| AssertionError (msg : string)
| ValueError (msg : string)
| IndexError
| KeyError
| TypeError
| NameError.

Inductive result (T : Type) : Type :=
| Ok (v : T)
| Raise (e : exn).
Arguments Ok {T} v.
Arguments Raise {T} e.

Definition bind {T U : Type} (r : result T) (k : T -> result U) : result U :=
  match r with
  | Ok v => k v
  | Raise e => Raise e
  end.

(** [assert cond, msg] *)
Definition assert (cond : bool) (msg : string) : result unit :=
  if cond then Ok tt else Raise (AssertionError msg).

(** Positional selection [frame.iloc[index]]: an out-of-bounds position
    raises [IndexError]. *)
Fixpoint iloc {T : Type} (frame : list T) (index : list nat) : result (list T) :=
  match index with
  | [] => Ok []
  | i :: rest =>
      match frame !! i with
      | Some row => bind (iloc frame rest) (fun rows => Ok (row :: rows))
      | None => Raise IndexError
      end
  end.

(** [a[i]] on a sequence, for a non-negative constant [i]. *)
Definition getitem {T : Type} (a : list T) (i : nat) : result T :=
  match a !! i with
  | Some v => Ok v
  | None => Raise IndexError
  end.

(** [a > b] on scores. *)
Definition gt (a b : Q) : bool := negb (Qle_bool a b).

End Python.

Import Python.

Notation "x <- r ;; k" := (bind r (fun x => k))
  (at level 100, r at next level, right associativity, only parsing).

(** ** The match outcome, the label of a fixture *)

Inductive outcome : Type := Away | Draw | Home.

#[global] Instance outcome_eq_dec : EqDecision outcome.
Proof. solve_decision. Defined.

(** ** scikit-learn: KFold and the two metrics *)

Module Sklearn.

(** [KFold(n_splits).split(X)] with no shuffling: the test blocks are
    consecutive, the first [n mod n_splits] of them one row longer; the
    training indices are all the others, in order. Fewer rows than splits
    is a [ValueError]. *)
Definition fold_sizes (n_splits n : nat) : list nat :=
  map (fun i => (n / n_splits + (if (i <? n mod n_splits)%nat then 1 else 0))%nat)
      (seq 0 n_splits).

Fixpoint blocks (n start : nat) (sizes : list nat) : list (list nat * list nat) :=
  match sizes with
  | [] => []
  | size :: rest =>
      let stop := (start + size)%nat in
      (seq 0 start ++ seq stop (n - stop), seq start size) :: blocks n stop rest
  end.

Definition KFold_split (n_splits n : nat) : result (list (list nat * list nat)) :=
  if (n <? n_splits)%nat
  then Raise (ValueError "Cannot have number of splits greater than the number of samples")
  else Ok (blocks n 0 (fold_sizes n_splits n)).

Definition count_if {T : Type} (p : T -> bool) (l : list T) : nat :=
  length (filter (fun x => p x = true) l).

Definition agree (pair : outcome * outcome) : bool :=
  bool_decide (pair.1 = pair.2).

Definition ratio (a b : nat) : Q := (inject_Z (Z.of_nat a) / inject_Z (Z.of_nat b))%Q.

(** [accuracy_score(y_true, y_pred)]: the fraction of rows predicted
    right. *)
Definition accuracy_score (y_true y_pred : list outcome) : Q :=
  ratio (count_if agree (zip y_true y_pred)) (length y_true).

(** Recall of one class: of the rows whose actual label is [c], the
    fraction predicted [c]. *)
Definition recall (c : outcome) (y_true y_pred : list outcome) : Q :=
  let rows := filter (fun pair => pair.1 = c) (zip y_true y_pred) in
  ratio (count_if agree rows) (length rows).

(** [balanced_accuracy_score(y_true, y_pred)]: the mean of the recalls
    of the classes that occur in [y_true]. *)
Definition balanced_accuracy_score (y_true y_pred : list outcome) : Q :=
  let present :=
    filter (fun c => bool_decide (c ∈ y_true) = true) [Away; Draw; Home] in
  (foldr Qplus 0%Q (map (fun c => recall c y_true y_pred) present)
     / inject_Z (Z.of_nat (length present)))%Q.

Record metric : Type := {
  __name__ : string;
  score : list outcome -> list outcome -> Q
}.

End Sklearn.

Import Sklearn.

(** ** Rows and tables *)

Definition date : Type := Z.

(** A row of the frame [get_data] receives: a fixture with the columns of
    the training query, or the predictor's one-row placeholder.
    [fixture_id] is [None] when the placeholder was built on an empty
    fixture store; [full_time_result] is [None] when the frame has no such
    column. *)
Record fixture : Type := {
  fixture_id : option Z;
  fixture_date : date;
  home_id : Z;
  home_team : string;
  away_id : Z;
  away_team : string;
  season : string;
  home_manager_start : date;
  away_manager_start : date;
  full_time_result : option outcome
}.

(** A row of the [managers] table; [end_date = None] is an open tenure. *)
Record tenure : Type := {
  team_id : Z;
  manager : string;
  start_date : date;
  end_date : option date
}.

(** The columns of [main_fixtures] that the queries of this class read. *)
Record main_fixture : Type := {
  mf_fixture_id : Z;
  mf_date : date
}.

(** A data frame is the list of its rows, each with its index label. *)
Definition frame (T : Type) : Type := list (nat * T).

(** The collaborators of the class: the feature helpers of
    [src.utils.xgboost], the team-name lookup, xgboost's classifier, column
    selection and the preprocessing of the parent class. *)
Class Collaborators : Type := {
  (** a row that [get_features] returns: identifiers and features *)
  feature_row : Type;
  (** a row restricted to the [model_features] columns *)
  features : Type;
  (** the team statistics [get_feature_data] reads *)
  team_data : Type;
  (** a fitted [xgb.XGBClassifier] *)
  classifier : Type;
  (** a class probability as the classifier reports it *)
  probability : Type;
  get_manager_features : frame fixture -> frame fixture;
  get_feature_data : string -> team_data;
  get_features : fixture -> nat -> team_data -> list string -> Z -> feature_row;
  (** [get_profit(x)] on a row of held-out predictions: the feature row,
      [pred], the actual result and [model_id] *)
  get_profit : feature_row -> outcome -> outcome -> string -> Q;
  fetch_name : Z -> string;
  (** [get_manager(team_id, date)], on the rows of the [managers] table:
      the rows of the team's manager on the date *)
  get_manager : list tenure -> Z -> date -> list tenure;
  (** [row['fixture_id']] *)
  row_fixture_id : feature_row -> option Z;
  (** [X[columns]] on one row *)
  columns : list string -> feature_row -> features;
  (** [xgb.XGBClassifier(...).fit(X, y)], from the keyword arguments of
      the constructor *)
  XGBClassifier_fit : gmap string Z -> list features -> list outcome -> classifier;
  (** [model.predict(X)] *)
  classifier_predict : classifier -> list features -> list outcome;
  (** [model.predict_proba(X)]: one row of class probabilities per row of
      [X], in the order of the sorted labels *)
  predict_proba : classifier -> list features -> list (list probability);
  (** Python's [round(p, ndigits)] on a class probability *)
  round : probability -> Z -> probability;
  (** [Model.preprocess] of the parent class *)
  preprocess : list features -> list features
}.

(** A row of the [historic_predictions] table: a held-out prediction with
    the columns [model_id] and [profit]. *)
Record historic_prediction `{Collaborators} : Type := {
  hp_row : feature_row;
  hp_pred : outcome;
  hp_actual : outcome;
  hp_model_id : string;
  hp_profit : Q
}.

(** The sqlite database: [historic_predictions = None] when the table does
    not exist. *)
Record db `{Collaborators} : Type := {
  main_fixtures : list main_fixture;
  managers : list tenure;
  historic_predictions : option (list historic_prediction)
}.

(** ** The instance *)

Record XGBoostModel `{Collaborators} : Type := {
  test_mode : bool;
  params : gmap string Z;
  param_grid : gmap string (list Z);
  trained_model : option classifier;
  performance : gmap string Q;
  model_id : string;
  window_length : Z;
  upload_historic_predictions : option bool;
  min_training_data_date : string
}.

Section Methods.

Context `{Collaborators}.

(** The attributes [__init__] sets before it loads or trains a model. *)
Definition init_attributes (test_mode : bool)
    (upload_historic_predictions : option bool) (model_id : string) : XGBoostModel :=
  {| test_mode := test_mode;
     params := {[ "n_estimators" := 100 ]};
     param_grid := <[ "max_depth" := [2; 4; 6] ]> {[ "n_estimators" := [50; 100; 200] ]};
     trained_model := None;
     performance := ∅;
     model_id := model_id;
     window_length := 8;
     upload_historic_predictions := upload_historic_predictions;
     min_training_data_date := "2013-08-01" |}.

Definition balanced_accuracy : metric :=
  {| __name__ := "balanced_accuracy_score"; score := balanced_accuracy_score |}.

Definition accuracy : metric :=
  {| __name__ := "accuracy_score"; score := accuracy_score |}.

Definition performance_metrics : list metric := [balanced_accuracy; accuracy].

Definition model_features : list string :=
  [ "avg_goals_for_home"; "avg_goals_against_home"; "sd_goals_for_home";
    "sd_goals_against_home"; "avg_shots_for_home"; "avg_shots_against_home";
    "sd_shots_for_home"; "sd_shots_against_home"; "avg_yellow_cards_home";
    "avg_red_cards_home"; "b365_win_odds_home"; "avg_perf_vs_bm_home";
    "manager_new_home"; "manager_age_home"; "win_rate_home"; "draw_rate_home";
    "loss_rate_home"; "home_advantage_sum_home"; "home_advantage_avg_home";
    "avg_goals_for_away"; "avg_goals_against_away"; "sd_goals_for_away";
    "sd_goals_against_away"; "avg_shots_for_away"; "avg_shots_against_away";
    "sd_shots_for_away"; "sd_shots_against_away"; "avg_yellow_cards_away";
    "avg_red_cards_away"; "b365_win_odds_away"; "avg_perf_vs_bm_away";
    "manager_new_away"; "manager_age_away"; "win_rate_away"; "draw_rate_away";
    "loss_rate_away"; "home_advantage_sum_away"; "home_advantage_avg_away" ]%string.

Definition identifiers : list string :=
  [ "fixture_id"; "date"; "home_team"; "home_id"; "away_team"; "away_id";
    "season" ]%string.

Definition set_best (self : XGBoostModel) (model : classifier)
    (scores : gmap string Q) : XGBoostModel :=
  {| test_mode := test_mode self;
     params := params self;
     param_grid := param_grid self;
     trained_model := Some model;
     performance := scores;
     model_id := model_id self;
     window_length := window_length self;
     upload_historic_predictions := upload_historic_predictions self;
     min_training_data_date := min_training_data_date self |}.

Definition set_params (self : XGBoostModel) (p : gmap string Z)
    (grid : gmap string (list Z)) : XGBoostModel :=
  {| test_mode := test_mode self;
     params := p;
     param_grid := grid;
     trained_model := trained_model self;
     performance := performance self;
     model_id := model_id self;
     window_length := window_length self;
     upload_historic_predictions := upload_historic_predictions self;
     min_training_data_date := min_training_data_date self |}.

(** *** get_data *)

(** [(df['fixture_id'] > window_length * 10) & (df['fixture_id'] < 370)]
    on one row; on a missing id both comparisons are false. *)
Definition in_window (w : Z) (row : nat * fixture) : result bool :=
  match fixture_id row.2 with
  | Some id => Ok ((w * 10 <? id) && (id <? 370))
  | None => Ok false
  end.

(** [df[mask]] *)
Fixpoint boolean_mask (w : Z) (df : frame fixture) : result (frame fixture) :=
  match df with
  | [] => Ok []
  | row :: rest =>
      keep <- in_window w row ;;
      rows <- boolean_mask w rest ;;
      Ok (if keep : bool then row :: rows else rows)
  end.

(** [df.sample(100)]: the rows at the positions the sampler drew. *)
Definition sample {T : Type} (df : list T) (picks : list nat) : list T :=
  omap (fun i => df !! i) picks.

Definition get_data (self : XGBoostModel) (picks : list nat) (df : frame fixture)
    : result (list feature_row * list outcome) :=
  let df := get_manager_features df in
  let df2 := get_feature_data (min_training_data_date self) in
  df <- boolean_mask (window_length self) df ;;
  let df :=
    if test_mode self && (100 <? length df)%nat then sample df picks else df in
  let X :=
    map (fun row : nat * fixture =>
           get_features row.2 row.1 df2 identifiers (window_length self)) df in
  let y := omap (fun row : nat * fixture => full_time_result row.2) df in
  Ok (X, y).

(** *** train_model *)

(** The variables the loop over the folds leaves bound. *)
Record fold_vars : Type := {
  xgb_model : classifier;
  predictions : list outcome;
  actuals : list outcome
}.

(** A row of [model_predictions] before the model id and the profit are
    added: the feature row, [pred] and the actual result. *)
Definition prediction : Type := (feature_row * outcome * outcome)%type.

(** One pass of the loop: fit on the training rows, predict the held-out
    rows and append them, with [pred] and the actual result beside each
    row, to [model_predictions]. [X] and [y] carry the same index, so
    [pd.concat(..., axis=1)] pairs them by position. *)
Definition fold_body (X : list feature_row) (y : list outcome)
    (model_predictions : list prediction) (split : list nat * list nat)
    : result (fold_vars * list prediction) :=
  let '(train_index, test_index) := split in
  X_train <- iloc X train_index ;;
  y_train <- iloc y train_index ;;
  let xgb_model := XGBClassifier_fit ∅ (map (columns model_features) X_train) y_train in
  X_test <- iloc X test_index ;;
  let predictions := classifier_predict xgb_model (map (columns model_features) X_test) in
  actuals <- iloc y test_index ;;
  if (length predictions =? length X_test)%nat
  then Ok ({| xgb_model := xgb_model; predictions := predictions; actuals := actuals |},
           model_predictions ++ zip (zip X_test predictions) actuals)
  else Raise (ValueError "Shape of passed values does not match the index").

Fixpoint for_folds (X : list feature_row) (y : list outcome)
    (splits : list (list nat * list nat))
    (state : option fold_vars * list prediction)
    : result (option fold_vars * list prediction) :=
  match splits with
  | [] => Ok state
  | split :: rest =>
      step <- fold_body X y state.2 split ;;
      for_folds X y rest (Some step.1, step.2)
  end.

(** [kf = KFold(n_splits=10)] and the loop over [kf.split(X)]. *)
Definition cross_validate (X : list feature_row) (y : list outcome)
    : result (fold_vars * list prediction) :=
  splits <- KFold_split 10 (length X) ;;
  state <- for_folds X y splits (None, []) ;;
  match state.1 with
  | Some vars => Ok (vars, state.2)
  | None => Raise NameError
  end.

(** [self.performance[metric.__name__] = metric(actuals, predictions)] for
    every metric. *)
Definition record_scores (vars : fold_vars) (scores : gmap string Q) : gmap string Q :=
  foldl (fun scores metric =>
           <[ __name__ metric := score metric (actuals vars) (predictions vars) ]> scores)
        scores performance_metrics.

(** [self.performance.get(main_performance_metric, 0)] *)
Definition stored_score (self : XGBoostModel) (name : string) : Q :=
  default 0%Q (performance self !! name).

(** The comparison and the swap of the best model. *)
Definition select_model (self : XGBoostModel) (vars : fold_vars) : result XGBoostModel :=
  metric <- getitem performance_metrics 0 ;;
  let main_performance_metric := __name__ metric in
  let performance_score := score metric (actuals vars) (predictions vars) in
  if gt performance_score (stored_score self main_performance_metric)
  then Ok (set_best self (xgb_model vars) (record_scores vars (performance self)))
  else Ok self.

(** The name and the value of the score [select_model] compares: the
    first metric, on the variables the loop left bound. *)
Definition primary : string := "balanced_accuracy_score".

Definition new_score (vars : fold_vars) : Q :=
  balanced_accuracy_score (actuals vars) (predictions vars).

(** [model_predictions['model_id']] and [model_predictions['profit']] *)
Definition tag (self : XGBoostModel) (p : prediction) : historic_prediction :=
  {| hp_row := p.1.1;
     hp_pred := p.1.2;
     hp_actual := p.2;
     hp_model_id := model_id self;
     hp_profit := get_profit p.1.1 p.1.2 p.2 (model_id self) |}.

(** [drop table if exists historic_predictions] *)
Definition drop_historic_predictions (d : db) : db :=
  {| main_fixtures := main_fixtures d;
     managers := managers d;
     historic_predictions := None |}.

(** [to_sql('historic_predictions', if_exists='append')] *)
Definition to_sql_append (d : db) (rows : list historic_prediction) : db :=
  {| main_fixtures := main_fixtures d;
     managers := managers d;
     historic_predictions := Some (default [] (historic_predictions d) ++ rows) |}.

Definition upload_enabled (self : XGBoostModel) : bool :=
  negb (test_mode self) || default false (upload_historic_predictions self).

(** Every exception is raised before the first assignment to [self] and
    before the first statement sent to the database, so a call that
    raises leaves both as they were. *)
Definition train_model (self : XGBoostModel) (d : db)
    (X : list feature_row) (y : list outcome) : result (XGBoostModel * db) :=
  cv <- cross_validate X y ;;
  let '(vars, model_predictions) := cv in
  self <- select_model self vars ;;
  let model_predictions := map (tag self) model_predictions in
  let d := drop_historic_predictions d in
  let d := if upload_enabled self then to_sql_append d model_predictions else d in
  Ok (self, d).

(** Repeated calls on one instance; a call that raises is skipped. *)
Fixpoint train_models (self : XGBoostModel) (d : db)
    (calls : list (list feature_row * list outcome)) : XGBoostModel * db :=
  match calls with
  | [] => (self, d)
  | (X, y) :: rest =>
      match train_model self d X y with
      | Ok (self', d') => train_models self' d' rest
      | Raise _ => train_models self d rest
      end
  end.

(** *** get_info *)

(** [select max(column)]: [None] on no rows. *)
Definition sql_max (values : list Z) : option Z :=
  match values with
  | [] => None
  | v :: rest => Some (foldr Z.max v rest)
  end.

(** [frame.loc[0, column]]: the value at index label 0, the first row of
    a query result. *)
Definition loc0 {T : Type} (column : list T) : result T :=
  match column with
  | v :: _ => Ok v
  | [] => Raise KeyError
  end.

(** [select max(date) from main_fixtures], then
    [select max(fixture_id) id from main_fixtures where date = max_date],
    the date of the first query going into the second as it is. *)
Definition max_date (d : db) : option date :=
  sql_max (map mf_date (main_fixtures d)).

Definition max_fixture (d : db) : option Z :=
  max_date d ≫= (fun latest =>
    sql_max (map mf_fixture_id
               (filter (fun f => mf_date f = latest) (main_fixtures d)))).

(** A team has no manager of record on a date when [get_manager] returns
    no row for it. *)
Definition no_manager_of_record (d : db) (team : Z) (day : date) : Prop :=
  get_manager (managers d) team day = [].

Definition get_info (d : db) (home_id away_id : Z) (day : date) (season : string)
    : result (frame fixture) :=
  let h_manager := get_manager (managers d) home_id day in
  let a_manager := get_manager (managers d) away_id day in
  _ <- assert (0 <? length h_manager)%nat "No data returned for home manager" ;;
  _ <- assert (0 <? length a_manager)%nat "No data returned for away manager" ;;
  let max_fixture := max_fixture d in
  h_start <- loc0 (map start_date h_manager) ;;
  a_start <- loc0 (map start_date a_manager) ;;
  Ok [ (0%nat,
        {| fixture_id := max_fixture;
           fixture_date := day;
           home_id := home_id;
           home_team := fetch_name home_id;
           away_id := away_id;
           away_team := fetch_name away_id;
           season := season;
           home_manager_start := h_start;
           away_manager_start := a_start;
           full_time_result := None |}) ].

(** *** _predict and predict *)

(** [None] is Python's [None]. *)
Definition _predict (self : XGBoostModel) (X : list features)
    : option (list (list probability)) :=
  let X := preprocess X in
  match trained_model self with
  | Some model => Some (predict_proba model X)
  | None => None
  end.

(** Modelled from the spec: [Model.predict] of the parent class
    ([src.models.base_model]) is not among the sources. The predictor is
    to "invoke the stored TrainedModelArtifact's probability-prediction
    function restricted to the trained feature list", which is what
    [_predict] does. *)
Definition Model_predict (self : XGBoostModel) (X : list features)
    : option (list (list probability)) :=
  _predict self X.

(** [X[self.model_features]] on the whole frame: a frame with no rows has
    no columns either. *)
Definition select_columns (X : list feature_row) : result (list features) :=
  match X with
  | [] => Raise KeyError
  | _ => Ok (map (columns model_features) X)
  end.

(** [preds[0][i]]: [None] is not subscriptable. *)
Definition class_probability (preds : option (list (list probability))) (i : nat)
    : result probability :=
  match preds with
  | None => Raise TypeError
  | Some rows => first <- getitem rows 0 ;; getitem first i
  end.

(** The arguments are the keyword arguments after their conversion by
    [int], [str] and [pd.to_datetime]. *)
Definition predict (self : XGBoostModel) (d : db)
    (home_id away_id : Z) (day : date) (season : string)
    : result (gmap string probability) :=
  info <- get_info d home_id away_id day season ;;
  Xy <- get_data self [] info ;;
  X <- select_columns Xy.1 ;;
  let preds := Model_predict self X in
  h <- class_probability preds 2 ;;
  dr <- class_probability preds 1 ;;
  a <- class_probability preds 0 ;;
  Ok (<[ "H" := round h 2 ]> (<[ "D" := round dr 2 ]> {[ "A" := round a 2 ]})).

End Methods.

(** ** The other methods: reading the predictions back, construction *)

(** What a [select] on a table gives: its rows, or the failure of the query
    when the table does not exist. *)
Inductive query_result (T : Type) : Type :=
| Rows (rows : list T)
| NoSuchTable.
Arguments Rows {T} rows.
Arguments NoSuchTable {T}.

Section Lifecycle.

Context `{Collaborators}.

(** [select * from historic_predictions where model_id = '...'], with the
    model id of the instance. *)
Definition get_historic_predictions (self : XGBoostModel) (d : db)
    : query_result historic_prediction :=
  match historic_predictions d with
  | Some rows => Rows (filter (fun r => hp_model_id r = model_id self) rows)
  | None => NoSuchTable
  end.

(** The rows the mask of [get_data] keeps, as a test on one row. *)
Definition passes_filter (w : Z) (row : nat * fixture) : bool :=
  match fixture_id row.2 with
  | Some id => (w * 10 <? id) && (id <? 370)
  | None => false
  end.

(** An instance is coherent when it holds no model and no score, or a
    model and the scores of the two metrics, each between 0 and 1. *)
Definition coherent (self : XGBoostModel) : Prop :=
  (trained_model self = None /\ performance self = ∅)
  \/ (is_Some (trained_model self)
      /\ dom (performance self)
         = ({[ "balanced_accuracy_score"; "accuracy_score" ]} : gset string)
      /\ forall name value,
           performance self !! name = Some value -> (0 <= value <= 1)%Q).

(** The methods of the parent class [Model] ([src.models.base_model]) and
    [run_query] ([src.utils.db]) are not among the sources: they are
    variables, free to change the instance and the database.
    [Model_load_model] also returns whether the load succeeded. *)
Variable Model_load_model :
  XGBoostModel -> db -> string -> option date -> bool * (XGBoostModel * db).
Variable Model_optimise_hyperparams :
  XGBoostModel -> db -> list features -> list outcome -> XGBoostModel * db.
Variable Model_save_model : XGBoostModel -> db -> XGBoostModel * db.
Variable run_query : db -> string -> frame fixture.

Definition training_data_query : string :=
  "select t1.*, m_h.manager home_manager, m_h.start_date home_manager_start, 
            m_a.manager away_manager, m_a.start_date away_manager_start,
             b365_home_odds, b365_draw_odds, b365_away_odds 
            from main_fixtures t1 
            left join managers m_h 
            on t1.home_id = m_h.team_id 
            and (t1.date between m_h.start_date and date(m_h.end_date, '+1 day') 
            or t1.date > m_h.start_date and m_h.end_date is NULL) 
            left join managers m_a 
            on t1.away_id = m_a.team_id 
            and (t1.date between m_a.start_date and date(m_a.end_date, '+1 day') 
            or t1.date > m_a.start_date and m_a.end_date is NULL) 
            where t1.date > '2013-08-01'".

Definition get_training_data (d : db) : frame fixture :=
  run_query d training_data_query.

(** [self.model_type], the name of [xgb.XGBClassifier]. *)
Definition model_type : string := "XGBClassifier".

(** The model id, made from the clock, and the positions the sampler draws
    are arguments. *)
Definition __init__ (test_mode load_model : bool) (load_model_date : option date)
    (save_trained_model : bool) (upload_historic_predictions : option bool)
    (model_id : string) (picks : list nat) (d : db) : result (XGBoostModel * db) :=
  let self := init_attributes test_mode upload_historic_predictions model_id in
  let loaded :=
    if load_model
    then Model_load_model self d model_type load_model_date
    else (false, (self, d)) in
  let load_successful := loaded.1 in
  let self := loaded.2.1 in
  let d := loaded.2.2 in
  if negb (load_model || load_successful)
  then
    let df := get_training_data d in
    Xy <- get_data self picks df ;;
    X_features <- select_columns Xy.1 ;;
    let tuned := Model_optimise_hyperparams self d X_features Xy.2 in
    trained <- train_model tuned.1 tuned.2 Xy.1 Xy.2 ;;
    Ok (if save_trained_model then Model_save_model trained.1 trained.2 else trained)
  else Ok (self, d).

End Lifecycle.

(** ** A small world to run the methods in

    A classifier that has learnt one thing, the most frequent label of its
    training rows, and reports fixed probabilities for it. *)

Module Toy.

Definition most_frequent (y : list outcome) : outcome :=
  let n c := count_if (fun l => bool_decide (l = c)) y in
  if (n Home <? n Away)%nat && (n Draw <=? n Away)%nat then Away
  else if (n Home <? n Draw)%nat then Draw
  else Home.

(** The toy's probabilities are rationals, rounded to the nearest multiple
    of the power of ten, a tie going to the even multiple. *)
Definition round_half_even (x : Q) : Z :=
  let n := Qnum x in
  let d := Z.pos (Qden x) in
  let q := n / d in
  let r := n mod d in
  if 2 * r <? d then q
  else if d <? 2 * r then q + 1
  else if Z.even q then q else q + 1.

Definition round_digits (x : Q) (ndigits : Z) : Q :=
  Qmake (round_half_even (x * inject_Z (10 ^ ndigits))) (Z.to_pos (10 ^ ndigits)).

Definition probabilities (label : outcome) : list Q :=
  match label with
  | Away => [ 624 # 1000; 25 # 100; 126 # 1000 ]
  | Draw => [ 3 # 10; 4 # 10; 3 # 10 ]
  | Home => [ 126 # 1000; 25 # 100; 624 # 1000 ]
  end%Q.

(** Modelled from the spec: [get_manager] of [src.utils.xgboost] is not
    among the sources. It resolves the manager of a team as of a date: the
    tenure rows of the team with "start_date <= date <= end_date or
    end_date is open". *)
Definition in_charge (team : Z) (day : date) (t : tenure) : bool :=
  (team_id t =? team) && (start_date t <=? day)
  && match end_date t with
     | Some last => day <=? last
     | None => true
     end.

#[export] Instance collaborators : Collaborators := {|
  feature_row := option Z * list Q;
  features := list Q;
  team_data := unit;
  classifier := outcome;
  probability := Q;
  get_manager_features := fun df => df;
  get_feature_data := fun _ => tt;
  get_features := fun row index _ _ _ =>
    (fixture_id row, [inject_Z (home_id row); inject_Z (away_id row)]);
  get_profit := fun _ pred actual _ => if bool_decide (pred = actual) then 1%Q else (-1)%Q;
  fetch_name := fun id => if id =? 1 then "Arsenal" else "Chelsea";
  get_manager := fun table team day =>
    filter (fun t => in_charge team day t = true) table;
  row_fixture_id := fst;
  columns := fun _ row => snd row;
  XGBClassifier_fit := fun _ _ y => most_frequent y;
  classifier_predict := fun model X => map (fun _ => model) X;
  predict_proba := fun model X => map (fun _ => probabilities model) X;
  round := round_digits;
  preprocess := fun X => X
|}.

(** Ten engineered rows; the first fixture was a draw, the others home
    wins. *)
Definition X10 : list feature_row :=
  map (fun i => (Some (100 + Z.of_nat i), [inject_Z 1; inject_Z 2])) (seq 0 10).

Definition y10 : list outcome := Draw :: replicate 9 Home.

Definition tenures : list tenure :=
  [ {| team_id := 1; manager := "Wenger"; start_date := 0; end_date := Some 700 |};
    {| team_id := 1; manager := "Emery"; start_date := 701; end_date := None |};
    {| team_id := 2; manager := "Sarri"; start_date := 650; end_date := None |} ].

Definition fixtures : list main_fixture :=
  [ {| mf_fixture_id := 101; mf_date := 690 |};
    {| mf_fixture_id := 205; mf_date := 720 |};
    {| mf_fixture_id := 203; mf_date := 720 |} ].

Definition old_record : historic_prediction :=
  {| hp_row := (Some 90, [inject_Z 2; inject_Z 1]);
     hp_pred := Away;
     hp_actual := Away;
     hp_model_id := "XGBClassifier_2019-01-01_1";
     hp_profit := 1%Q |}.

Definition store : db :=
  {| main_fixtures := fixtures;
     managers := tenures;
     historic_predictions := Some [old_record] |}.

(** The store at the end of a season: the latest fixture is the 380th. *)
Definition store_season_end : db :=
  {| main_fixtures := [ {| mf_fixture_id := 379; mf_date := 890 |};
                        {| mf_fixture_id := 380; mf_date := 900 |} ];
     managers := tenures;
     historic_predictions := None |}.

Definition fresh : XGBoostModel := init_attributes false None "XGBClassifier_2019-06-01_2".

Definition fresh_test_mode : XGBoostModel :=
  init_attributes true None "XGBClassifier_2019-06-01_3".

(** An instance holding a model fitted on home wins only. *)
Definition trained : XGBoostModel :=
  set_best fresh Home {[ "balanced_accuracy_score" := 1%Q ]}.

(** The frame of the training query for three fixtures, one inside each
    exclusion boundary and one between them. *)
Definition training_frame : frame fixture :=
  map (fun id : Z =>
         (Z.to_nat id,
          {| fixture_id := Some id; fixture_date := 700 + id; home_id := 1;
             home_team := "Arsenal"; away_id := 2; away_team := "Chelsea";
             season := "18/19"; home_manager_start := 0; away_manager_start := 650;
             full_time_result := Some Home |}))
      [80; 81; 370].

End Toy.

(** ** Properties *)

Section Selection.

Context `{Collaborators}.

Lemma gt_true (a b : Q) : gt a b = true <-> (b < a)%Q.
Proof.
  unfold gt. rewrite negb_true_iff. split.
  - intros Hle. apply Qnot_le_lt. intros Hab.
    apply Qle_bool_iff in Hab. congruence.
  - intros Hlt. destruct (Qle_bool a b) eqn:Hle; [|done].
    apply Qle_bool_iff in Hle. destruct (Qlt_not_le _ _ Hlt Hle).
Qed.

Lemma gt_false (a b : Q) : gt a b = false <-> (a <= b)%Q.
Proof.
  unfold gt. rewrite negb_false_iff. apply Qle_bool_iff.
Qed.

Lemma select_model_eq (self : XGBoostModel) (vars : fold_vars) :
  select_model self vars =
    Ok (if gt (new_score vars) (stored_score self primary)
        then set_best self (xgb_model vars) (record_scores vars (performance self))
        else self).
Proof.
  unfold select_model; simpl.
  fold (new_score vars). fold primary.
  by destruct (gt _ _).
Qed.

Lemma record_scores_primary (vars : fold_vars) (scores : gmap string Q) :
  record_scores vars scores !! primary = Some (new_score vars).
Proof.
  unfold record_scores; simpl.
  rewrite lookup_insert_ne; [|done].
  by rewrite lookup_insert_eq.
Qed.

Lemma stored_score_set_best (self : XGBoostModel) (vars : fold_vars) :
  stored_score
    (set_best self (xgb_model vars) (record_scores vars (performance self))) primary
  = new_score vars.
Proof.
  unfold stored_score; simpl. by rewrite record_scores_primary.
Qed.

(** [train_model] is the cross-validation, then the selection, then the
    upload. *)
Lemma train_model_inv (self self' : XGBoostModel) (d d' : db)
    (X : list feature_row) (y : list outcome) :
  train_model self d X y = Ok (self', d') ->
  exists vars model_predictions,
    cross_validate X y = Ok (vars, model_predictions)
    /\ select_model self vars = Ok self'
    /\ d' = (if upload_enabled self'
             then to_sql_append (drop_historic_predictions d)
                    (map (tag self') model_predictions)
             else drop_historic_predictions d).
Proof.
  unfold train_model. intros Hrun.
  destruct (cross_validate X y) as [[vars preds]|e]; simpl in Hrun; [|done].
  exists vars, preds. split; [done|].
  destruct (select_model self vars) as [s|e]; simpl in Hrun; [|done].
  by inversion Hrun; subst.
Qed.

Lemma train_model_run (self : XGBoostModel) (d : db)
    (X : list feature_row) (y : list outcome)
    (vars : fold_vars) (model_predictions : list prediction) :
  cross_validate X y = Ok (vars, model_predictions) ->
  exists self' d',
    train_model self d X y = Ok (self', d')
    /\ select_model self vars = Ok self'.
Proof.
  intros Hcv. unfold train_model. rewrite Hcv; simpl.
  rewrite select_model_eq; simpl. eauto.
Qed.

Lemma train_model_stored_score_le (self self' : XGBoostModel) (d d' : db)
    (X : list feature_row) (y : list outcome) :
  train_model self d X y = Ok (self', d') ->
  (stored_score self primary <= stored_score self' primary)%Q.
Proof.
  intros Hrun.
  destruct (train_model_inv _ _ _ _ _ _ Hrun) as (vars & preds & _ & Hsel & _).
  rewrite select_model_eq in Hsel. inversion Hsel as [Hself]; clear Hsel.
  destruct (gt _ _) eqn:Hgt.
  - rewrite stored_score_set_best. apply Qlt_le_weak. by apply gt_true.
  - apply Qle_refl.
Qed.

Lemma train_models_app (self : XGBoostModel) (d : db)
    (earlier later : list (list feature_row * list outcome)) :
  train_models self d (earlier ++ later) =
    train_models (train_models self d earlier).1 (train_models self d earlier).2 later.
Proof.
  revert self d. induction earlier as [|[X y] rest IH]; intros self d; simpl; [done|].
  destruct (train_model self d X y) as [[self' d']|e]; apply IH.
Qed.

Lemma train_models_stored_score_le (self : XGBoostModel) (d : db)
    (calls : list (list feature_row * list outcome)) :
  (stored_score self primary <= stored_score (train_models self d calls).1 primary)%Q.
Proof.
  revert self d. induction calls as [|[X y] rest IH]; intros self d; simpl.
  - apply Qle_refl.
  - destruct (train_model self d X y) as [[self' d']|e] eqn:Hrun; [|apply IH].
    eapply Qle_trans; [|apply IH].
    eapply train_model_stored_score_le, Hrun.
Qed.

(** C2. A call of [train_model] that returns has replaced the stored
    model and scores exactly when the new primary score is strictly greater
    than the stored one, 0 standing for a score that is not stored: a
    changed instance means a strictly greater score, and a strictly greater
    score means the last fitted model and its scores are stored. Hence over
    any sequence of calls on one instance the stored primary score never
    decreases: it is at most what it is after any further calls. *)
Theorem train_model_keeps_only_improvements (self : XGBoostModel) (d : db) :
  (performance self !! primary = None -> stored_score self primary = 0%Q)
  /\ (forall X y self' d',
      train_model self d X y = Ok (self', d') ->
      exists vars model_predictions,
        cross_validate X y = Ok (vars, model_predictions)
        /\ (self' <> self -> (stored_score self primary < new_score vars)%Q)
        /\ ((stored_score self primary < new_score vars)%Q ->
            trained_model self' = Some (xgb_model vars)
            /\ performance self' = record_scores vars (performance self)
            /\ stored_score self' primary = new_score vars)
        /\ (stored_score self primary <= stored_score self' primary)%Q)
  /\ (forall earlier later,
        (stored_score (train_models self d earlier).1 primary
         <= stored_score (train_models self d (earlier ++ later)).1 primary)%Q).
Proof.
  split; [|split].
  - unfold stored_score. by intros ->.
  - intros X y self' d' Hrun.
    destruct (train_model_inv _ _ _ _ _ _ Hrun) as (vars & preds & Hcv & Hsel & _).
    pose proof (train_model_stored_score_le _ _ _ _ _ _ Hrun) as Hmono.
    exists vars, preds. split; [done|].
    rewrite select_model_eq in Hsel. inversion Hsel as [Hself]; clear Hsel.
    split; [|split].
    + destruct (gt _ _) eqn:Hgt; [intros _; by apply gt_true | done].
    + intros Hlt. apply gt_true in Hlt. rewrite Hlt.
      split; [done|]. split; [done|]. apply stored_score_set_best.
    + by rewrite Hself.
  - intros earlier later. rewrite train_models_app.
    apply train_models_stored_score_le.
Qed.

(** C7. When the new primary score is lower than or equal to the stored
    score (0 when none is stored), [train_model] returns the instance as it
    was: the stored model and the performance dictionary are the old ones,
    untouched. *)
Theorem train_model_no_improvement_no_swap (self : XGBoostModel) (d : db)
    (X : list feature_row) (y : list outcome)
    (vars : fold_vars) (model_predictions : list prediction) :
  cross_validate X y = Ok (vars, model_predictions) ->
  (new_score vars <= stored_score self primary)%Q ->
  exists self' d',
    train_model self d X y = Ok (self', d')
    /\ self' = self
    /\ trained_model self' = trained_model self
    /\ performance self' = performance self.
Proof.
  intros Hcv Hle.
  destruct (train_model_run self d X y vars model_predictions Hcv)
    as (self' & d' & Hrun & Hsel).
  exists self', d'. split; [done|].
  rewrite select_model_eq in Hsel.
  apply gt_false in Hle. rewrite Hle in Hsel.
  inversion Hsel; subst. done.
Qed.

End Selection.

Section Training.

Context `{Collaborators}.

Lemma fold_body_inv (X : list feature_row) (y : list outcome)
    (model_predictions model_predictions' : list prediction)
    (train_index test_index : list nat) (vars : fold_vars) :
  fold_body X y model_predictions (train_index, test_index)
    = Ok (vars, model_predictions') ->
  exists X_train y_train X_test,
    iloc X train_index = Ok X_train
    /\ iloc y train_index = Ok y_train
    /\ iloc X test_index = Ok X_test
    /\ iloc y test_index = Ok (actuals vars)
    /\ xgb_model vars
       = XGBClassifier_fit ∅ (map (columns model_features) X_train) y_train
    /\ predictions vars
       = classifier_predict (xgb_model vars) (map (columns model_features) X_test)
    /\ length (predictions vars) = length X_test
    /\ model_predictions'
       = model_predictions ++ zip (zip X_test (predictions vars)) (actuals vars).
Proof.
  unfold fold_body. intros Hbody.
  destruct (iloc X train_index) as [X_train|e]; simpl in Hbody; [|done].
  destruct (iloc y train_index) as [y_train|e]; simpl in Hbody; [|done].
  destruct (iloc X test_index) as [X_test|e]; simpl in Hbody; [|done].
  destruct (iloc y test_index) as [y_test|e]; simpl in Hbody; [|done].
  destruct (_ =? _)%nat eqn:Hlen; [|done].
  apply Nat.eqb_eq in Hlen.
  inversion Hbody; subst; simpl.
  exists X_train, y_train, X_test. by repeat split.
Qed.

(** The variables left bound after the loop are those of the last fold. *)
Lemma for_folds_last (X : list feature_row) (y : list outcome)
    (splits : list (list nat * list nat))
    (state : option fold_vars * list prediction)
    (vars : fold_vars) (model_predictions : list prediction) :
  splits <> [] ->
  for_folds X y splits state = Ok (Some vars, model_predictions) ->
  exists earlier split before,
    splits = earlier ++ [split]
    /\ fold_body X y before split = Ok (vars, model_predictions).
Proof.
  revert state.
  induction splits as [|split rest IH]; intros state Hne Hrun; [done|].
  simpl in Hrun.
  destruct (fold_body X y state.2 split) as [[vars1 preds1]|e] eqn:Hbody;
    simpl in Hrun; [|done].
  destruct rest as [|split' rest'].
  - simpl in Hrun. inversion Hrun; subst.
    exists [], split, state.2. by split.
  - destruct (IH _ ltac:(done) Hrun) as (earlier & last & before & Heq & Hlast).
    exists (split :: earlier), last, before. split; [|done].
    by rewrite Heq.
Qed.

Lemma cross_validate_last_fold (X : list feature_row) (y : list outcome)
    (vars : fold_vars) (model_predictions : list prediction) :
  cross_validate X y = Ok (vars, model_predictions) ->
  exists earlier split before,
    KFold_split 10 (length X) = Ok (earlier ++ [split])
    /\ length earlier = 9%nat
    /\ fold_body X y before split = Ok (vars, model_predictions).
Proof.
  unfold cross_validate. intros Hcv.
  destruct (KFold_split 10 (length X)) as [splits|e] eqn:Hsplit;
    simpl in Hcv; [|done].
  destruct (for_folds X y splits (None, [])) as [[[last|] preds]|e] eqn:Hrun;
    simpl in Hcv; [|done|done].
  inversion Hcv; subst.
  assert (length splits = 10%nat) as Hlen.
  { unfold KFold_split in Hsplit. destruct (_ <? _)%nat; [done|].
    inversion Hsplit; subst. reflexivity. }
  destruct (for_folds_last X y splits _ _ _ ltac:(by intros ->) Hrun)
    as (earlier & split & before & Heq & Hbody).
  exists earlier, split, before. split; [by rewrite Heq|]. split; [|done].
  rewrite Heq, length_app in Hlen. simpl in Hlen. lia.
Qed.

Lemma iloc_seq {T : Type} (frame : list T) (start len : nat) (rows : list T) :
  iloc frame (seq start len) = Ok rows ->
  rows = take len (drop start frame) /\ length rows = len.
Proof.
  revert start rows. induction len as [|len IH]; intros start rows Hrows.
  - simpl in Hrows. inversion Hrows; subst. by rewrite take_0.
  - simpl in Hrows.
    destruct (frame !! start) as [row|] eqn:Hrow; [|done].
    destruct (iloc frame (seq (S start) len)) as [rest|e] eqn:Hrest;
      simpl in Hrows; [|done].
    inversion Hrows; subst; clear Hrows.
    destruct (IH _ _ Hrest) as [-> Hlen].
    rewrite (drop_S _ _ _ Hrow); simpl. split; [done|]. by rewrite Hlen.
Qed.

Lemma sum_list_snoc (sizes : list nat) (size : nat) :
  sum_list (sizes ++ [size]) = (sum_list sizes + size)%nat.
Proof. induction sizes as [|first rest IH]; simpl; lia. Qed.

Lemma sum_fold_sizes (n_splits n : nat) :
  (0 < n_splits)%nat -> sum_list (fold_sizes n_splits n) = n.
Proof.
  intros Hpos. unfold fold_sizes.
  assert (forall k, sum_list
            (map (fun i => (n / n_splits
                            + (if (i <? n mod n_splits)%nat then 1 else 0))%nat)
                 (seq 0 k))
          = (k * (n / n_splits) + Nat.min k (n mod n_splits))%nat) as Hsum.
  { induction k as [|k IH]; [done|].
    rewrite seq_S, map_app. cbn [map]. rewrite sum_list_snoc, IH, Nat.add_0_l.
    destruct (k <? n mod n_splits)%nat eqn:Hk.
    - apply Nat.ltb_lt in Hk. lia.
    - apply Nat.ltb_ge in Hk. lia. }
  rewrite Hsum.
  pose proof (Nat.mod_upper_bound n n_splits ltac:(lia)).
  pose proof (Nat.div_mod_eq n n_splits). lia.
Qed.

Lemma for_folds_blocks (X : list feature_row) (y : list outcome)
    (start : nat) (sizes : list nat)
    (state state' : option fold_vars * list prediction) :
  for_folds X y (blocks (length X) start sizes) state = Ok state' ->
  (state'.2).*1.*1 = (state.2).*1.*1 ++ take (sum_list sizes) (drop start X)
  /\ (state'.2).*2 = (state.2).*2 ++ take (sum_list sizes) (drop start y).
Proof.
  revert start state. induction sizes as [|size rest IH]; intros start state Hrun.
  - simpl in Hrun. inversion Hrun; subst. by rewrite !app_nil_r.
  - cbn [blocks for_folds] in Hrun.
    destruct (fold_body _ _ _ _) as [[vars preds]|e] eqn:Hbody;
      cbn [bind] in Hrun; [|done].
    destruct (fold_body_inv _ _ _ _ _ _ _ Hbody)
      as (X_train & y_train & X_test & _ & _ & HX & Hy & _ & _ & Hlen & ->).
    destruct (iloc_seq _ _ _ _ HX) as [HX_test HX_len].
    destruct (iloc_seq _ _ _ _ Hy) as [Hy_test Hy_len].
    destruct (IH _ _ Hrun) as [IHX IHy]. simpl in IHX, IHy.
    rewrite IHX, IHy, !fmap_app, <- !app_assoc.
    rewrite snd_zip by (rewrite length_zip; lia).
    rewrite !fst_zip by (rewrite ?length_zip; lia).
    change (sum_list (size :: rest)) with (size + sum_list rest)%nat.
    rewrite <- !take_take_drop, !drop_drop.
    by rewrite <- HX_test, <- Hy_test.
Qed.

(** The held-out predictions of the ten folds are one per row of [X], in
    the order of the rows, each with the label of its row. *)
Lemma cross_validate_covers (X : list feature_row) (y : list outcome)
    (vars : fold_vars) (model_predictions : list prediction) :
  cross_validate X y = Ok (vars, model_predictions) ->
  model_predictions.*1.*1 = X
  /\ model_predictions.*2 = take (length X) y.
Proof.
  unfold cross_validate, KFold_split. intros Hcv.
  destruct (_ <? _)%nat; cbn [bind] in Hcv; [done|].
  destruct (for_folds _ _ _ _) as [[[last|] preds]|e] eqn:Hrun;
    cbn [bind fst snd] in Hcv; [|done|done].
  inversion Hcv; subst; clear Hcv.
  destruct (for_folds_blocks _ _ _ _ _ _ Hrun) as [HX Hy].
  rewrite sum_fold_sizes in HX, Hy by lia.
  simpl in HX, Hy. by rewrite firstn_all in HX.
Qed.

(** C10. Every fold's classifier is fitted from a constructor called with
    no keyword arguments, on the training rows of the fold; and
    [train_model] never reads [params] or [param_grid]: whatever they hold,
    as set by [__init__] or left by a tuning step, the call raises the same
    exception or returns the same instance but for these two attributes
    passed through, and the same database. *)
Theorem train_model_ignores_params (self : XGBoostModel) (d : db)
    (X : list feature_row) (y : list outcome)
    (p : gmap string Z) (grid : gmap string (list Z)) :
  train_model (set_params self p grid) d X y
  = match train_model self d X y with
    | Ok (self', d') => Ok (set_params self' p grid, d')
    | Raise e => Raise e
    end
  /\ (forall before train_index test_index vars after,
        fold_body X y before (train_index, test_index) = Ok (vars, after) ->
        exists X_train y_train,
          iloc X train_index = Ok X_train
          /\ iloc y train_index = Ok y_train
          /\ xgb_model vars
             = XGBClassifier_fit ∅ (map (columns model_features) X_train) y_train).
Proof.
  split.
  - unfold train_model.
    destruct (cross_validate X y) as [[vars preds]|e]; simpl; [|done].
    rewrite !select_model_eq; simpl.
    change (stored_score (set_params self p grid) primary)
      with (stored_score self primary).
    by destruct (gt _ _); simpl; destruct (upload_enabled _).
  - intros before train_index test_index vars after Hbody.
    destruct (fold_body_inv _ _ _ _ _ _ _ Hbody)
      as (X_train & y_train & X_test & HX & Hy & _ & _ & Hfit & _).
    by exists X_train, y_train.
Qed.

(** C3, as the code has it. A call of [train_model] that returns has
    written the held-out predictions of all folds, one per row of [X] and
    each tagged with the model id of the instance and with its profit, as
    the last rows of [historic_predictions] when the instance is not in test
    mode or [upload_historic_predictions] is set; in test mode without that
    override it has written no row. The fixtures and the managers are as
    they were. *)
Theorem train_model_uploads_when_enabled (self self' : XGBoostModel) (d d' : db)
    (X : list feature_row) (y : list outcome) :
  train_model self d X y = Ok (self', d') ->
  exists vars model_predictions,
    cross_validate X y = Ok (vars, model_predictions)
    /\ model_predictions.*1.*1 = X
    /\ main_fixtures d' = main_fixtures d
    /\ managers d' = managers d
    /\ Forall (fun r =>
                 hp_model_id r = model_id self
                 /\ hp_profit r
                    = get_profit (hp_row r) (hp_pred r) (hp_actual r) (model_id self))
              (map (tag self) model_predictions)
    /\ (upload_enabled self = true ->
        exists earlier,
          historic_predictions d'
          = Some (earlier ++ map (tag self) model_predictions))
    /\ (upload_enabled self = false ->
        forall r, r ∈ default [] (historic_predictions d') ->
                  r ∈ default [] (historic_predictions d)).
Proof.
  intros Hrun.
  destruct (train_model_inv _ _ _ _ _ _ Hrun) as (vars & preds & Hcv & Hsel & Hd).
  exists vars, preds. split; [done|].
  split; [by eapply cross_validate_covers|].
  rewrite select_model_eq in Hsel. inversion Hsel as [Hself]; clear Hsel.
  assert (upload_enabled self' = upload_enabled self) as Hgate
    by (rewrite <- Hself; by destruct (gt _ _)).
  assert (tag self' = tag self) as Htag
    by (rewrite <- Hself; by destruct (gt _ _)).
  rewrite Hgate, Htag in Hd. clear Hself Hgate Htag Hrun.
  split; [by subst d'; destruct (upload_enabled self)|].
  split; [by subst d'; destruct (upload_enabled self)|].
  split.
  { apply Forall_forall. intros r Hr.
    apply list_elem_of_fmap in Hr as (p & -> & _). done. }
  split.
  - intros Hon. rewrite Hon in Hd. subst d'; simpl. by exists [].
  - intros Hoff. rewrite Hoff in Hd. subst d'; simpl.
    intros r Hr. by apply elem_of_nil in Hr.
Qed.

End Training.

Section Features.

Context `{Collaborators}.

Lemma boolean_mask_kept (w : Z) (df kept : frame fixture) :
  boolean_mask w df = Ok kept ->
  forall row, row ∈ kept ->
    row ∈ df
    /\ exists id, fixture_id row.2 = Some id /\ w * 10 < id < 370.
Proof.
  revert kept. induction df as [|first rest IH]; intros kept Hmask row Hrow.
  - simpl in Hmask. inversion Hmask; subst. by apply elem_of_nil in Hrow.
  - simpl in Hmask. unfold in_window in Hmask.
    destruct (fixture_id first.2) as [id|] eqn:Hid; simpl in Hmask.
    + destruct (boolean_mask w rest) as [rows|e]; simpl in Hmask; [|done].
      specialize (IH rows eq_refl).
      destruct ((w * 10 <? id) && (id <? 370)) eqn:Hin;
        inversion Hmask; subst; clear Hmask.
      * apply elem_of_cons in Hrow as [->|Hrow].
        -- split; [left|]. exists id. split; [done|].
           apply andb_true_iff in Hin as [Hlo Hhi].
           apply Z.ltb_lt in Hlo, Hhi. lia.
        -- destruct (IH row Hrow) as [Hin' Hid']. split; [by right | done].
      * destruct (IH row Hrow) as [Hin' Hid']. split; [by right | done].
    + destruct (boolean_mask w rest) as [rows|e]; simpl in Hmask; [|done].
      inversion Hmask; subst; clear Hmask.
      destruct (IH kept eq_refl row Hrow) as [Hin' Hid'].
      split; [by right | done].
Qed.

Lemma boolean_mask_total (w : Z) (df : frame fixture) :
  exists kept, boolean_mask w df = Ok kept.
Proof.
  induction df as [|row rest [kept IH]]; simpl; [by eexists|].
  unfold in_window. rewrite IH.
  destruct (fixture_id row.2); simpl; by eexists.
Qed.

Lemma sample_subset {T : Type} (df : list T) (picks : list nat) (row : T) :
  row ∈ sample df picks -> row ∈ df.
Proof.
  unfold sample. intros Hrow.
  apply list_elem_of_omap in Hrow as (i & _ & Hi).
  by eapply list_elem_of_lookup_2.
Qed.

(** Every row of the feature matrix is the feature row of a fixture that
    passed the filter. *)
Lemma get_data_rows (self : XGBoostModel) (picks : list nat) (df : frame fixture)
    (X : list feature_row) (y : list outcome) :
  get_data self picks df = Ok (X, y) ->
  forall x, x ∈ X ->
    exists row,
      row ∈ get_manager_features df
      /\ x = get_features row.2 row.1
               (get_feature_data (min_training_data_date self))
               identifiers (window_length self)
      /\ exists id, fixture_id row.2 = Some id
                    /\ window_length self * 10 < id < 370.
Proof.
  unfold get_data. intros Hdata x Hx.
  destruct (boolean_mask _ _) as [kept|e] eqn:Hmask; simpl in Hdata; [|done].
  inversion Hdata; subst; clear Hdata.
  apply list_elem_of_fmap in Hx as (row & -> & Hrow).
  assert (row ∈ kept) as Hkept.
  { destruct (test_mode self && _); [by eapply sample_subset | done]. }
  destruct (boolean_mask_kept _ _ _ Hmask row Hkept) as [Hin Hid].
  by exists row.
Qed.

Lemma get_data_total (self : XGBoostModel) (picks : list nat) (df : frame fixture) :
  exists X y, get_data self picks df = Ok (X, y).
Proof.
  unfold get_data.
  destruct (boolean_mask_total (window_length self) (get_manager_features df))
    as [kept ->]; simpl.
  by do 2 eexists.
Qed.

(** C8. Given that [get_features] carries the identifier columns
    unchanged, every row of the feature matrix that [get_data] returns has
    a fixture id strictly greater than [window_length * 10] and strictly
    less than 370, the boundary of the last game week. *)
Theorem get_data_rows_inside_window (self : XGBoostModel) (picks : list nat)
    (df : frame fixture) (X : list feature_row) (y : list outcome) :
  (forall row index data ids w,
      row_fixture_id (get_features row index data ids w) = fixture_id row) ->
  get_data self picks df = Ok (X, y) ->
  Forall (fun x => exists id,
              row_fixture_id x = Some id
              /\ window_length self * 10 < id < 370) X.
Proof.
  intros Hkeep Hdata. apply Forall_forall. intros x Hx.
  destruct (get_data_rows _ _ _ _ _ Hdata x Hx) as (row & _ & -> & id & Hid & Hin).
  exists id. by rewrite Hkeep.
Qed.

End Features.

Section Predictor.

Context `{Collaborators}.

Lemma get_info_no_home_manager (d : db) (home away : Z) (day : date) (s : string) :
  no_manager_of_record d home day ->
  get_info d home away day s
  = Raise (AssertionError "No data returned for home manager").
Proof. intros Hnil. unfold get_info. by rewrite Hnil. Qed.

Lemma get_info_no_away_manager (d : db) (home away : Z) (day : date) (s : string) :
  ~ no_manager_of_record d home day ->
  no_manager_of_record d away day ->
  get_info d home away day s
  = Raise (AssertionError "No data returned for away manager").
Proof.
  unfold no_manager_of_record. intros Hhome Haway.
  unfold get_info. rewrite Haway.
  by destruct (get_manager (managers d) home day).
Qed.

Lemma predict_get_info_raises (self : XGBoostModel) (d : db) (home away : Z)
    (day : date) (s : string) (e : exn) :
  get_info d home away day s = Raise e ->
  predict self d home away day s = Raise e.
Proof. intros Hinfo. unfold predict. by rewrite Hinfo. Qed.

(** C4. When the home team has no manager of record on the date,
    [get_info] raises the assertion error that names the home manager, and
    when the home team has one and the away team has none, the one that
    names the away manager; [predict] raises the same error, so it returns
    no prediction. In either case the error is one of these two. *)
Theorem missing_manager_is_reported (self : XGBoostModel) (d : db)
    (home away : Z) (day : date) (s : string) :
  (no_manager_of_record d home day ->
   get_info d home away day s
   = Raise (AssertionError "No data returned for home manager")
   /\ predict self d home away day s
      = Raise (AssertionError "No data returned for home manager"))
  /\ (~ no_manager_of_record d home day ->
      no_manager_of_record d away day ->
      get_info d home away day s
      = Raise (AssertionError "No data returned for away manager")
      /\ predict self d home away day s
         = Raise (AssertionError "No data returned for away manager"))
  /\ (no_manager_of_record d home day \/ no_manager_of_record d away day ->
      exists msg,
        msg ∈ [ "No data returned for home manager";
                "No data returned for away manager" ]%string
        /\ get_info d home away day s = Raise (AssertionError msg)
        /\ predict self d home away day s = Raise (AssertionError msg)).
Proof.
  assert (forall msg, get_info d home away day s = Raise (AssertionError msg) ->
            get_info d home away day s = Raise (AssertionError msg)
            /\ predict self d home away day s = Raise (AssertionError msg))
    as Hboth by (intros msg Hinfo; split; [done | by apply predict_get_info_raises]).
  assert (no_manager_of_record d home day ->
          get_info d home away day s
          = Raise (AssertionError "No data returned for home manager")) as Hhome
    by apply get_info_no_home_manager.
  assert (~ no_manager_of_record d home day ->
          no_manager_of_record d away day ->
          get_info d home away day s
          = Raise (AssertionError "No data returned for away manager")) as Haway.
  { apply get_info_no_away_manager. }
  split; [|split].
  - intros Hnone. by apply Hboth, Hhome.
  - intros Hsome Hnone. by apply Hboth, Haway.
  - intros Hnone.
    assert (no_manager_of_record d home day \/ ~ no_manager_of_record d home day)
      as [Hnil|Hcons].
    { unfold no_manager_of_record.
      destruct (get_manager (managers d) home day); [by left | by right]. }
    + exists "No data returned for home manager". split; [left|].
      by apply Hboth, Hhome.
    + destruct Hnone as [Hnone|Hnone]; [done|].
      exists "No data returned for away manager". split; [right; left|].
      by apply Hboth, Haway.
Qed.

(** The placeholder's fixture id is the result of the second query as it
    is. *)
Lemma get_info_fixture_id (d : db) (home away : Z) (day : date) (s : string)
    (info : frame fixture) :
  get_info d home away day s = Ok info ->
  exists row, info = [(0%nat, row)] /\ fixture_id row = max_fixture d.
Proof.
  unfold get_info. intros Hinfo.
  destruct (assert _ _); simpl in Hinfo; [|done].
  destruct (assert _ _); simpl in Hinfo; [|done].
  destruct (loc0 _); simpl in Hinfo; [|done].
  destruct (loc0 _); simpl in Hinfo; [|done].
  inversion Hinfo; subst. by eexists.
Qed.

(** The feature matrix of a one-row frame whose fixture passes the
    filter. *)
Lemma get_data_one_row (self : XGBoostModel) (picks : list nat)
    (df : frame fixture) (index : nat) (row : fixture) (id : Z) :
  get_manager_features df = [(index, row)] ->
  fixture_id row = Some id ->
  window_length self * 10 < id < 370 ->
  get_data self picks df
  = Ok ([get_features row index (get_feature_data (min_training_data_date self))
           identifiers (window_length self)],
        omap (fun r : nat * fixture => full_time_result r.2) [(index, row)]).
Proof.
  intros Hframe Hid [Hlo Hhi]. unfold get_data. rewrite Hframe.
  cbn [boolean_mask]. unfold in_window. cbn [snd]. rewrite Hid.
  apply Z.ltb_lt in Hlo, Hhi. rewrite Hlo, Hhi. cbn [bind andb length].
  by rewrite andb_false_r.
Qed.

(** C6, as the code has it. A request for two teams that have managers,
    made when the latest fixture id of the store is strictly between
    [window_length * 10] and 370, so that the placeholder passes the filter
    of [get_data], to an instance that holds a trained model whose
    classifier reports three class probabilities for the row, gets a
    dictionary with exactly the keys H, D and A: H is [round(p, 2)] of the
    probability at class index 2, D of the one at index 1 and A of the one
    at index 0. [get_manager_features] is taken to return the placeholder
    row with its fixture id. *)
Theorem predict_output (self : XGBoostModel) (d : db)
    (home away : Z) (day : date) (s : string)
    (info : frame fixture) (id : Z) (index : nat) (row : fixture)
    (model : classifier) (first : list probability) (a dr h : probability) :
  get_info d home away day s = Ok info ->
  max_fixture d = Some id ->
  window_length self * 10 < id < 370 ->
  get_manager_features info = [(index, row)] ->
  fixture_id row = Some id ->
  trained_model self = Some model ->
  predict_proba model
    (preprocess
       [columns model_features
          (get_features row index (get_feature_data (min_training_data_date self))
             identifiers (window_length self))]) !! 0%nat
  = Some first ->
  first !! 0%nat = Some a ->
  first !! 1%nat = Some dr ->
  first !! 2%nat = Some h ->
  exists out,
    predict self d home away day s = Ok out
    /\ dom out = ({[ "H"; "D"; "A" ]} : gset string)
    /\ out !! "H" = Some (round h 2)
    /\ out !! "D" = Some (round dr 2)
    /\ out !! "A" = Some (round a 2).
Proof.
  intros Hinfo _ Hin Hframe Hid Hmodel Hfirst Ha Hdr Hh.
  eexists. split.
  { unfold predict. rewrite Hinfo; cbn [bind].
    rewrite (get_data_one_row self [] info index row id Hframe Hid Hin); cbn [bind].
    unfold Model_predict, _predict. rewrite Hmodel.
    cbn [select_columns map fst bind].
    unfold class_probability, getitem.
    rewrite Hfirst; cbn [bind]. rewrite Hh, Hdr, Ha; cbn [bind]. reflexivity. }
  split.
  { rewrite !dom_insert_L, dom_singleton_L. set_solver. }
  split; [by rewrite lookup_insert_eq|].
  split; [by rewrite lookup_insert_ne, lookup_insert_eq|].
  by rewrite !lookup_insert_ne, ?lookup_singleton_eq.
Qed.

(** C9, as the code has it. Before any model is trained or loaded,
    [_predict] returns [None], Python's null, without calling the
    classifier; with a stored model it returns the probabilities the model
    reports for the preprocessed rows. *)
Theorem internal_predict_untrained_is_None (self : XGBoostModel) (X : list features) :
  (trained_model self = None -> _predict self X = None)
  /\ (forall model, trained_model self = Some model ->
        _predict self X = Some (predict_proba model (preprocess X))).
Proof.
  unfold _predict. split.
  - by intros ->.
  - by intros model ->.
Qed.

End Predictor.


(** ** The methods run on the small world *)

Section Runs.

Import Toy.

(** C1, on the code. Ten rows, of which the first is a draw that every
    fold's classifier gets wrong and the other nine are home wins that are
    predicted right. The held-out predictions of all ten folds have a
    balanced accuracy of 1/2; the score that [train_model] stores, and that
    decided the selection, is 1: that of the tenth fold alone. *)
Lemma train_model_scores_last_fold_only :
  exists self' d' rows,
    train_model fresh store X10 y10 = Ok (self', d')
    /\ historic_predictions d' = Some rows
    /\ map hp_row rows = X10
    /\ map hp_actual rows = y10
    /\ (balanced_accuracy_score (map hp_actual rows) (map hp_pred rows) == 1 # 2)%Q
    /\ performance self' !! primary = Some 1%Q
    /\ ~ (1 == 1 # 2)%Q.
Proof.
  do 3 eexists. split; [vm_compute; reflexivity|].
  split; [reflexivity|].
  by vm_compute.
Qed.

Lemma train_model_keeps_only_improvements_witness :
  exists self' d',
    train_model fresh store X10 y10 = Ok (self', d')
    /\ (stored_score fresh primary <= stored_score self' primary)%Q
    /\ (stored_score self' primary
        <= stored_score (train_models fresh store [(X10, y10); (X10, y10)]).1 primary)%Q.
Proof.
  destruct (train_model_keeps_only_improvements fresh store) as (_ & Hone & Hmany).
  do 2 eexists. split; [vm_compute; reflexivity|].
  split.
  - match goal with
    | |- (_ <= stored_score ?s _)%Q =>
        destruct (Hone X10 y10 s _ ltac:(vm_compute; reflexivity))
          as (vars & preds & _ & _ & _ & Hle)
    end.
    exact Hle.
  - exact (Hmany [(X10, y10)] [(X10, y10)]).
Defined.

Lemma train_model_no_improvement_no_swap_witness :
  exists self' d',
    train_model trained store X10 y10 = Ok (self', d')
    /\ self' = trained
    /\ trained_model self' = trained_model trained
    /\ performance self' = performance trained.
Proof.
  eapply (train_model_no_improvement_no_swap trained store X10 y10).
  - vm_compute; reflexivity.
  - vm_compute; discriminate.
Defined.

(** C3 as stated fails. In test mode with no override, a call that finds
    one earlier record in [historic_predictions] leaves no table at all: the
    ten held-out predictions are not appended and the earlier record is not
    preserved. *)
Lemma historic_predictions_not_appended_in_test_mode :
  exists self' d',
    train_model fresh_test_mode store X10 y10 = Ok (self', d')
    /\ historic_predictions store = Some [old_record]
    /\ historic_predictions d' = None
    /\ ~ (exists appended,
            historic_predictions d' = Some ([old_record] ++ appended)).
Proof.
  do 2 eexists. split; [vm_compute; reflexivity|].
  split; [reflexivity|]. split; [reflexivity|].
  intros [appended Heq]. discriminate Heq.
Qed.

(** With the upload enabled the table holds the ten new rows and nothing
    else: the earlier record is gone. *)
Lemma train_model_drops_earlier_records :
  exists self' d' rows,
    train_model fresh store X10 y10 = Ok (self', d')
    /\ historic_predictions d' = Some rows
    /\ length rows = 10%nat
    /\ old_record ∉ rows.
Proof.
  do 3 eexists. split; [vm_compute; reflexivity|].
  split; [reflexivity|]. split; [reflexivity|].
  intros Hin. apply list_elem_of_fmap_2 with (f := hp_model_id) in Hin.
  vm_compute in Hin.
  repeat (apply elem_of_cons in Hin as [Hin|Hin]; [discriminate Hin|]).
  by apply elem_of_nil in Hin.
Qed.

Lemma train_model_uploads_when_enabled_witness :
  exists self' d' vars model_predictions,
    train_model fresh store X10 y10 = Ok (self', d')
    /\ cross_validate X10 y10 = Ok (vars, model_predictions)
    /\ exists earlier,
         historic_predictions d' = Some (earlier ++ map (tag fresh) model_predictions).
Proof.
  assert (exists self' d', train_model fresh store X10 y10 = Ok (self', d'))
    as (self' & d' & Hrun) by (do 2 eexists; vm_compute; reflexivity).
  destruct (train_model_uploads_when_enabled fresh self' store d' X10 y10 Hrun)
    as (vars & preds & Hcv & _ & _ & _ & _ & Hon & _).
  exists self', d', vars, preds.
  split; [exact Hrun|]. split; [exact Hcv|].
  apply Hon. reflexivity.
Defined.

Lemma train_model_ignores_params_witness :
  train_model (set_params fresh {[ "n_estimators" := 200 ]} ∅) store X10 y10
  = match train_model fresh store X10 y10 with
    | Ok (self', d') => Ok (set_params self' {[ "n_estimators" := 200 ]} ∅, d')
    | Raise e => Raise e
    end
  /\ exists X_train y_train,
       iloc X10 (seq 1 9) = Ok X_train
       /\ iloc y10 (seq 1 9) = Ok y_train
       /\ Home = XGBClassifier_fit ∅ (map (columns model_features) X_train) y_train.
Proof.
  destruct (train_model_ignores_params fresh store X10 y10
              {[ "n_estimators" := 200 ]} ∅) as [Hsame Hfit].
  split; [exact Hsame|].
  apply (Hfit [] (seq 1 9) [0%nat]
           (@Build_fold_vars collaborators Home [Home] [Draw])
           [((Some 100, [inject_Z 1; inject_Z 2]), Home, Draw)]).
  vm_compute; reflexivity.
Defined.

Lemma get_data_rows_inside_window_witness :
  exists X y,
    get_data fresh [] training_frame = Ok (X, y)
    /\ length X = 1%nat
    /\ Forall (fun x => exists id,
                 row_fixture_id x = Some id
                 /\ window_length fresh * 10 < id < 370) X.
Proof.
  do 2 eexists. split; [vm_compute; reflexivity|]. split; [reflexivity|].
  apply (get_data_rows_inside_window fresh [] training_frame _ [Home]).
  - reflexivity.
  - vm_compute; reflexivity.
Defined.

Lemma no_manager_for_team_3 : no_manager_of_record store 3 720.
Proof. reflexivity. Defined.

Lemma manager_for_team_1 : ~ no_manager_of_record store 1 720.
Proof. intros Hnone. discriminate Hnone. Defined.

Lemma missing_manager_is_reported_witness :
  (get_info store 3 2 720 "18/19"
   = Raise (AssertionError "No data returned for home manager")
   /\ predict trained store 3 2 720 "18/19"
      = Raise (AssertionError "No data returned for home manager"))
  /\ (get_info store 1 3 720 "18/19"
      = Raise (AssertionError "No data returned for away manager")
      /\ predict trained store 1 3 720 "18/19"
         = Raise (AssertionError "No data returned for away manager")).
Proof.
  split.
  - apply (missing_manager_is_reported trained store 3 2 720 "18/19").
    exact no_manager_for_team_3.
  - apply (missing_manager_is_reported trained store 1 3 720 "18/19").
    + exact manager_for_team_1.
    + exact no_manager_for_team_3.
Defined.

(** C5, on the code. The latest date of the store is day 720, on which the
    greatest fixture id is 205; the placeholder gets 205, the id of a
    fixture that exists, and not 206. *)
Lemma get_info_reuses_max_fixture_id :
  exists row,
    get_info store 1 2 720 "18/19" = Ok [(0%nat, row)]
    /\ max_date store = Some 720
    /\ max_fixture store = Some 205
    /\ fixture_id row = Some 205
    /\ fixture_id row <> Some (205 + 1).
Proof.
  eexists. split; [vm_compute; reflexivity|]. by repeat split.
Qed.

(** C6 as stated fails. At the end of a season the latest fixture of the
    store is the 380th: for two teams that have managers, on an instance
    that holds a trained model, [predict] raises [KeyError] and returns no
    dictionary, because the filter of [get_data] drops the placeholder. *)
Lemma predict_raises_at_season_end :
  ~ no_manager_of_record store_season_end 1 901
  /\ ~ no_manager_of_record store_season_end 2 901
  /\ trained_model trained = Some Home
  /\ max_fixture store_season_end = Some 380
  /\ predict trained store_season_end 1 2 901 "18/19" = Raise KeyError
  /\ ~ (exists out, predict trained store_season_end 1 2 901 "18/19" = Ok out).
Proof.
  split; [intros Hnone; discriminate Hnone|].
  split; [intros Hnone; discriminate Hnone|].
  split; [reflexivity|]. split; [reflexivity|].
  assert (predict trained store_season_end 1 2 901 "18/19" = Raise KeyError)
    as Hrun by (vm_compute; reflexivity).
  split; [exact Hrun|].
  intros [out Hout]. rewrite Hrun in Hout. discriminate Hout.
Qed.

Lemma predict_output_witness :
  exists out,
    predict trained store 1 2 720 "18/19" = Ok out
    /\ dom out = ({[ "H"; "D"; "A" ]} : gset string)
    /\ out !! "H" = Some (round (624 # 1000)%Q 2)
    /\ out !! "D" = Some (round (25 # 100)%Q 2)
    /\ out !! "A" = Some (round (126 # 1000)%Q 2)
    /\ round (624 # 1000)%Q 2 = (62 # 100)%Q
    /\ round (126 # 1000)%Q 2 = (13 # 100)%Q.
Proof.
  edestruct (predict_output trained store 1 2 720 "18/19")
    as (out & Hrun & Hdom & Hh & Hd & Ha).
  - vm_compute; reflexivity.
  - reflexivity.
  - vm_compute. split; reflexivity.
  - reflexivity.
  - reflexivity.
  - reflexivity.
  - vm_compute; reflexivity.
  - reflexivity.
  - reflexivity.
  - reflexivity.
  - exists out. repeat split; assumption || reflexivity.
Defined.

(** C9 as stated fails. An instance that has no model yet answers
    [_predict] with [None], the null value itself, and the request made
    through [predict] then fails on subscripting it. *)
Lemma internal_predict_untrained_returns_null :
  trained_model fresh = None
  /\ _predict fresh [[inject_Z 1; inject_Z 2]] = None
  /\ ~ (exists signal, _predict fresh [[inject_Z 1; inject_Z 2]] = Some signal)
  /\ predict fresh store 1 2 720 "18/19" = Raise TypeError.
Proof.
  split; [reflexivity|]. split; [reflexivity|]. split.
  - intros [signal Heq]. discriminate Heq.
  - vm_compute; reflexivity.
Qed.

Lemma internal_predict_untrained_is_None_witness :
  _predict fresh [[inject_Z 1; inject_Z 2]] = None
  /\ _predict trained [[inject_Z 1; inject_Z 2]]
     = Some [[ 126 # 1000; 25 # 100; 624 # 1000 ]]%Q.
Proof.
  split.
  - apply (proj1 (internal_predict_untrained_is_None fresh [[inject_Z 1; inject_Z 2]])).
    reflexivity.
  - apply (proj2 (internal_predict_untrained_is_None trained [[inject_Z 1; inject_Z 2]]) Home).
    reflexivity.
Defined.

End Runs.
